(** * fabtools.openvz.contextmanager: the [guest] scope

    A shallow embedding of [fabtools/openvz/contextmanager.py]: the
    [guest] context manager, which replaces Fabric's [_run_command] by
    [run_guest_command] for the duration of a [with] block, the host
    execution path [_run_host_command], and the quoting routine
    [_shell_wrap_inner].

    Fabric's global state ([fabric.state.env], [fabric.state.output], the
    module attribute [fabric.operations._run_command]) is threaded
    explicitly through a state-and-exception monad.  The functions the
    module imports from Fabric are not part of the repository: they are
    the fields of the class [Framework]. *)

From Stdlib Require Import String Ascii ZArith List Bool DecimalString Lia.
Import ListNotations.

Local Open Scope string_scope.
Local Open Scope Z_scope.

(** ** Python values *)

(** The values that reach a [%s] conversion in this module: strings
    (commands, host names, container names) and integers (numeric
    container ids, uids, exit statuses). *)
Inductive pyval : Type :=
| PStr (s : string)
| PInt (z : Z).

(** [str(int)]: decimal digits, with a leading minus sign when negative. *)
Definition str_of_int (z : Z) : string :=
  NilZero.string_of_int (Z.to_int z).

(** [str(v)], which is what the [%s] conversion applies to its argument. *)
Definition str (v : pyval) : string :=
  match v with
  | PStr s => s
  | PInt z => str_of_int z
  end.

(** Truth value of an optional argument ([None], a string or an integer),
    as tested by [sudo and user]. *)
Definition truthy (v : option pyval) : bool :=
  match v with
  | None => false
  | Some (PStr s) => negb (String.eqb s "")
  | Some (PInt z) => negb (Z.eqb z 0)
  end.

(** The double quote and the newline, as one-character strings. *)
Definition dquote : string := String (ascii_of_nat 34) EmptyString.
Definition newline : string := String (ascii_of_nat 10) EmptyString.

(** ** The [%] operator on literal templates

    Every use of [%] in the module has a literal template with [%s]
    conversions only and a tuple of matching length.  [sprintf t] takes as
    many arguments as [t] has [%s] conversions, so that the arity error of
    Python's [%] is excluded by typing. *)
Fixpoint format_type (t : string) : Type :=
  match t with
  | EmptyString => string
  | String c t' =>
      match t' with
      | EmptyString => string
      | String d rest =>
          if (Ascii.eqb c "%" && Ascii.eqb d "s")%bool
          then pyval -> format_type rest
          else format_type t'
      end
  end.

Fixpoint sprintf_k (t : string) (k : string -> string) {struct t} : format_type t :=
  match t return format_type t with
  | EmptyString => k EmptyString
  | String c t' =>
      match t' return (string -> string) -> format_type t' -> format_type (String c t') with
      | EmptyString => fun k _ => k (String c EmptyString)
      | String d rest => fun k literal =>
          if (Ascii.eqb c "%" && Ascii.eqb d "s")%bool as b
            return (if b then pyval -> format_type rest else format_type (String d rest))
          then fun v => sprintf_k rest (fun s => k (str v ++ s))
          else literal
      end k (sprintf_k t' (fun s => k (String c s)))
  end.

Definition sprintf (t : string) : format_type t := sprintf_k t (fun s => s).

(** ** Global state of the framework *)

(** [fabric.state.env]: the settings this module reads or writes, and the
    remaining settings, which only the framework's own functions read. *)
Module Env.

Record t : Type := make {
  shell : string;                  (* env.shell *)
  sudo_prefix : string;            (* env.sudo_prefix *)
  use_shell : bool;                (* env.use_shell *)
  warn_only : bool;                (* env.warn_only *)
  host_string : string;            (* env.host_string *)
  others : list (string * pyval)   (* every other setting, by name *)
}.

(** [env.shell = v] *)
Definition set_shell (v : string) (e : t) : t :=
  make v (sudo_prefix e) (use_shell e) (warn_only e) (host_string e) (others e).

(** [env.sudo_prefix = v] *)
Definition set_sudo_prefix (v : string) (e : t) : t :=
  make (shell e) v (use_shell e) (warn_only e) (host_string e) (others e).

End Env.

(** [fabric.state.output]: the two output levels the module tests. *)
Module Output.

Record t : Type := make {
  debug : bool;
  running : bool
}.

End Output.

(** ** Function objects, results and exceptions *)

(** The function objects that can sit in [fabric.operations._run_command]:
    Fabric's own primitive, or a [run_guest_command] closure.  A closure is
    created anew by each call of [guest]: [addr] is its identity, and
    [name_or_ctid] the variable of the enclosing call it refers to. *)
Inductive function : Type :=
| Fabric_run_command
| Run_guest_command (addr : nat) (name_or_ctid : pyval).

(** [_AttributeString]: a string with attributes attached by assignment.
    An attribute that has not been assigned yet is [None]. *)
Module AttributeString.

Record t : Type := make {
  text : string;
  failed : option bool;
  return_code : option Z;
  succeeded : option bool;
  stderr : option string
}.

(** [_AttributeString(s)] *)
Definition new (s : string) : t := make s None None None None.

Definition set_failed (b : bool) (o : t) : t :=
  make (text o) (Some b) (return_code o) (succeeded o) (stderr o).

Definition set_return_code (z : Z) (o : t) : t :=
  make (text o) (failed o) (Some z) (succeeded o) (stderr o).

Definition set_succeeded (b : option bool) (o : t) : t :=
  make (text o) (failed o) (return_code o) b (stderr o).

Definition set_stderr (s : string) (o : t) : t :=
  make (text o) (failed o) (return_code o) (succeeded o) (Some s).

End AttributeString.

Inductive exn : Type :=
| SystemExit (message : string)   (* raised by the framework's abort *)
| Exception (message : string).   (* any exception raised by user code *)

(** One call of [_execute]: the command text sent over the channel, and
    the [pty] and [combine_stderr] flags. *)
Definition execution : Type := (string * bool * bool)%type.

(** The process-wide state. *)
Module State.

Record t : Type := make {
  env : Env.t;                 (* fabric.state.env *)
  output : Output.t;           (* fabric.state.output *)
  _run_command : function;     (* fabric.operations._run_command *)
  next_addr : nat;             (* identity of the next function object *)
  stdout : list string;        (* lines printed, oldest first *)
  warnings : list string;      (* messages recorded by the framework's warn *)
  channel : list execution     (* commands sent over the channel, oldest first *)
}.

Definition set_env (e : Env.t) (w : t) : t :=
  make e (output w) (_run_command w) (next_addr w) (stdout w) (warnings w) (channel w).

Definition set__run_command (f : function) (w : t) : t :=
  make (env w) (output w) f (next_addr w) (stdout w) (warnings w) (channel w).

End State.

(** ** The state-and-exception monad *)

Inductive outcome (A : Type) : Type :=
| Returned (a : A)
| Raised (e : exn).

Arguments Returned {A} a.
Arguments Raised {A} e.

Definition M (A : Type) : Type := State.t -> outcome A * State.t.

Definition ret {A : Type} (a : A) : M A := fun w => (Returned a, w).

Definition bind {A B : Type} (m : M A) (k : A -> M B) : M B :=
  fun w =>
    match m w with
    | (Returned a, w') => k a w'
    | (Raised e, w') => (Raised e, w')
    end.

Definition raise {A : Type} (e : exn) : M A := fun w => (Raised e, w).

Notation "x <- m ;; k" := (bind m (fun x => k))
  (at level 61, m at next level, right associativity).
Notation "m ;; k" := (bind m (fun _ => k))
  (at level 61, right associativity).

Definition get_env : M Env.t := fun w => (Returned (State.env w), w).

Definition put_env (e : Env.t) : M unit := fun w => (Returned tt, State.set_env e w).

Definition get_output : M Output.t := fun w => (Returned (State.output w), w).

(** [print(line)] *)
Definition print (line : string) : M unit :=
  fun w =>
    (Returned tt,
     State.make (State.env w) (State.output w) (State._run_command w)
       (State.next_addr w) (State.stdout w ++ [line]) (State.warnings w)
       (State.channel w)).

(** ** The framework *)

(** The functions imported from [fabric.operations]; their code is not
    part of this repository.  Those that read [env] take it as an
    argument; none of them writes it. *)
Class Framework : Type := {
  (* _prefix_env_vars(command) *)
  _prefix_env_vars : Env.t -> string -> string;
  (* _prefix_commands(command, which) *)
  _prefix_commands : Env.t -> string -> string -> string;
  (* _sudo_prefix(user) *)
  _sudo_prefix : Env.t -> option pyval -> string;
  (* the escape pass applied by _shell_wrap to the command it quotes *)
  _shell_escape : string -> string;
  (* what the remote end answers to _execute(channel, command, pty,
     combine_stderr): stdout, stderr and exit status *)
  remote : string -> bool -> bool -> string * string * Z;
  (* fabric's own _run_command(command, shell, pty, combine_stderr, sudo, user) *)
  fabric_run_command :
    string -> bool -> bool -> bool -> bool -> option pyval -> M AttributeString.t
}.

(** ** The module *)

(** [_shell_wrap_inner(command, shell, sudo_prefix)], lines 128-152. *)
Definition _shell_wrap_inner (e : Env.t) (command : string) (shell : bool)
    (sudo_prefix : option string) : string :=
  (* if shell and not env.use_shell: shell = False *)
  let shell := if shell && negb (Env.use_shell e) then false else shell in
  (* Sudo plus space, or empty string *)
  let sudo_prefix :=
    match sudo_prefix with
    | None => ""
    | Some p => p ++ " "
    end in
  let '(shell, command) :=
    if shell
    then (Env.shell e ++ " ", sprintf (dquote ++ "%s" ++ dquote) (PStr command))
    else ("", command) in
  (sudo_prefix ++ shell) ++ command.

Section Interceptor.

Context {fw : Framework}.

(** Modelled from the spec: [fabric.operations._shell_wrap], the standard
    wrap, is imported by the module and absent from src/.  The spec gives
    it the assembly of the inner wrap (sudo prefix then space, shell
    invocation then space, command in double quotes, and the bare
    sudo-prefixed command when shell wrapping is off), with the escape pass
    applied to the command it quotes. *)
Definition _shell_wrap (e : Env.t) (command : string) (shell : bool)
    (sudo_prefix : option string) : string :=
  let shell := if shell && negb (Env.use_shell e) then false else shell in
  let sudo_prefix :=
    match sudo_prefix with
    | None => ""
    | Some p => p ++ " "
    end in
  let '(shell, command) :=
    if shell
    then (Env.shell e ++ " ",
          sprintf (dquote ++ "%s" ++ dquote) (PStr (_shell_escape command)))
    else ("", command) in
  (sudo_prefix ++ shell) ++ command.

(** Modelled from the spec: [fabric.utils.error], imported by the module
    and absent from src/: "an error-reporting function that either raises
    or records depending on warn-only". *)
Definition error (message : string) (stdout : AttributeString.t) (stderr : string)
    : M unit :=
  fun w =>
    if Env.warn_only (State.env w)
    then (Returned tt,
          State.make (State.env w) (State.output w) (State._run_command w)
            (State.next_addr w) (State.stdout w) (State.warnings w ++ [message])
            (State.channel w))
    else (Raised (SystemExit message), w).

(** [_execute(default_channel(), command, pty, combine_stderr)]: the
    command goes over the channel and the remote end answers. *)
Definition _execute (command : string) (pty combine_stderr : bool)
    : M (string * string * Z) :=
  fun w =>
    (Returned (remote command pty combine_stderr),
     State.make (State.env w) (State.output w) (State._run_command w)
       (State.next_addr w) (State.stdout w) (State.warnings w)
       (State.channel w ++ [(command, pty, combine_stderr)])).

(** [_run_host_command(command, shell, pty, combine_stderr)], lines 71-125. *)
Definition _run_host_command (command : string) (shell pty combine_stderr : bool)
    : M AttributeString.t :=
  let given_command := command in
  e <- get_env ;;
  let wrapped_command := _shell_wrap e command shell (Some (_sudo_prefix e None)) in
  (* Execute info line *)
  o <- get_output ;;
  (if Output.debug o
   then print (sprintf "[%s] %s: %s"
                 (PStr (Env.host_string e)) (PStr "sudo") (PStr wrapped_command))
   else if Output.running o
   then print (sprintf "[%s] %s: %s"
                 (PStr (Env.host_string e)) (PStr "sudo") (PStr given_command))
   else ret tt) ;;
  (* Actual execution *)
  r <- _execute wrapped_command pty combine_stderr ;;
  let '(stdout, stderr, status) := r in
  let out := AttributeString.new stdout in
  let err := stderr in
  (* Error handling *)
  let out := AttributeString.set_failed false out in
  out <- (if negb (status =? 0)
          then
            let out := AttributeString.set_failed true out in
            let msg := sprintf "%s() received nonzero return code %s while executing"
                         (PStr "sudo") (PInt status) in
            e <- get_env ;;
            let msg :=
              if Env.warn_only e
              then msg ++ sprintf " '%s'!" (PStr given_command)
              else msg ++ sprintf ("!" ++ newline ++ newline ++ "Requested: %s"
                                       ++ newline ++ "Executed: %s")
                            (PStr given_command) (PStr wrapped_command) in
            error msg out err ;;
            ret out
          else ret out) ;;
  let out := AttributeString.set_return_code status out in
  (* Convenience mirror of .failed *)
  let out := AttributeString.set_succeeded
               (option_map negb (AttributeString.failed out)) out in
  let out := AttributeString.set_stderr err out in
  ret out.

(** [run_guest_command(command, shell, pty, combine_stderr, sudo, user)],
    lines 33-61, the closure over [name_or_ctid] that [guest] installs. *)
Definition run_guest_command (name_or_ctid : pyval) (command : string)
    (shell pty combine_stderr sudo : bool) (user : option pyval)
    : M AttributeString.t :=
  (* Use a non-login shell *)
  e <- get_env ;;
  let _orig_shell := Env.shell e in
  put_env (Env.set_shell "/bin/bash -c" e) ;;
  (* Use double quotes for the sudo prompt *)
  e <- get_env ;;
  let _orig_sudo_prefix := Env.sudo_prefix e in
  put_env (Env.set_sudo_prefix
             ("sudo -S -p " ++ dquote ++ "%(sudo_prompt)s" ++ dquote ++ " ") e) ;;
  (* Build the guest command *)
  e <- get_env ;;
  let guest_command :=
    _shell_wrap_inner e
      (_prefix_commands e (_prefix_env_vars e command) "remote")
      true
      (if sudo && truthy user then Some (_sudo_prefix e user) else None) in
  let host_command :=
    sprintf "vzctl exec2 %s '%s'" name_or_ctid (PStr guest_command) in
  (* Restore env *)
  e <- get_env ;;
  put_env (Env.set_shell _orig_shell e) ;;
  e <- get_env ;;
  put_env (Env.set_sudo_prefix _orig_sudo_prefix e) ;;
  (* Run host command as root *)
  _run_host_command host_command shell pty combine_stderr.

(** Calling a function object with the arguments of [_run_command]. *)
Definition call (f : function) (command : string)
    (shell pty combine_stderr sudo : bool) (user : option pyval)
    : M AttributeString.t :=
  match f with
  | Fabric_run_command =>
      fabric_run_command command shell pty combine_stderr sudo user
  | Run_guest_command _ name_or_ctid =>
      run_guest_command name_or_ctid command shell pty combine_stderr sudo user
  end.

End Interceptor.

(** ** Generators used as context managers *)

(** A generator function with a single [yield], as [contextlib]'s
    [contextmanager] drives it.  [F] holds the locals of the frame that
    are live at the [yield]. *)
Record generator (F : Type) : Type := {
  (* first next(): the code up to the yield *)
  start : M F;
  (* second next(): the code after the yield, up to the end *)
  resume : F -> M unit;
  (* throw(e): e is raised at the yield *)
  throw : F -> exn -> M unit
}.

Arguments start {F} g.
Arguments resume {F} g f.
Arguments throw {F} g f e.

(** How the block of a [with] statement ends when it does not raise. *)
Inductive exit : Type :=
| Fell_through
| Early_return (v : pyval).

Definition block : Type := M exit.

(** [with g: body], for [g] decorated by [contextmanager].  [__enter__]
    is the first [next()].  When the block ends without an exception,
    [__exit__] calls [next()] again; when the block raises [e], [__exit__]
    calls [throw(e)], and the exception is suppressed only if the generator
    catches it and finishes. *)
Definition with_ {F : Type} (g : generator F) (body : block) : block :=
  fun w =>
    match start g w with
    | (Raised e, w1) => (Raised e, w1)
    | (Returned f, w1) =>
        match body w1 with
        | (Returned x, w2) =>
            match resume g f w2 with
            | (Returned _, w3) => (Returned x, w3)
            | (Raised e, w3) => (Raised e, w3)
            end
        | (Raised e, w2) =>
            match throw g f e w2 with
            | (Returned _, w3) => (Returned Fell_through, w3)
            | (Raised e', w3) => (Raised e', w3)
            end
        end
    end.

(** [guest(name_or_ctid)], lines 20-68.  The frame keeps
    [_orig_run_command].  The [yield] of line 65 is inside no [try]
    statement, so an exception thrown into the generator leaves it at
    once. *)
Definition guest (name_or_ctid : pyval) : generator function := {|
  start := fun w =>
    (* Monkey patch fabric's _run_command *)
    let _orig_run_command := State._run_command w in
    let run_guest_command := Run_guest_command (State.next_addr w) name_or_ctid in
    (Returned _orig_run_command,
     State.make (State.env w) (State.output w) run_guest_command
       (S (State.next_addr w)) (State.stdout w) (State.warnings w)
       (State.channel w));
  resume := fun _orig_run_command w =>
    (* Monkey unpatch *)
    (Returned tt, State.set__run_command _orig_run_command w);
  throw := fun _ e => raise e
|}.

(** ** A reference framework

    One framework that fits the spec's description of Fabric, and one
    initial state with Fabric's default settings; the closed examples
    below are evaluated on them. *)
Module Reference.

(** Modelled from the spec: the escape pass of the standard wrap
    ([fabric.operations._shell_escape]), absent from src/; "the shell's own
    escaping rules for a string placed inside double quotes": a backslash
    goes before each double quote, dollar sign and backquote. *)
Fixpoint _shell_escape (s : string) : string :=
  match s with
  | EmptyString => EmptyString
  | String c s' =>
      if (Ascii.eqb c (ascii_of_nat 34) || Ascii.eqb c "$" || Ascii.eqb c "`")%bool
      then String "\" (String c (_shell_escape s'))
      else String c (_shell_escape s')
  end.

(** A setting among [Env.others], as a string; empty when unset. *)
Fixpoint setting (name : string) (l : list (string * pyval)) : string :=
  match l with
  | [] => ""
  | (k, v) :: l' => if String.eqb k name then str v else setting name l'
  end.

(** Modelled from the spec: [fabric.operations._prefix_env_vars], absent
    from src/; the spec only names it ("environment-variable prefixing").
    Here a path setting, when there is one, is appended to PATH in front of
    the command, and the command is left as it is otherwise. *)
Definition _prefix_env_vars (e : Env.t) (command : string) : string :=
  let path := setting "path" (Env.others e) in
  if String.eqb path "" then command
  else "PATH=$PATH:" ++ dquote ++ path ++ dquote ++ " " ++ command.

(** Modelled from the spec: [fabric.operations._prefix_commands], absent
    from src/; the spec only names it ("working-directory/path
    prefixing").  Here a working directory, when there is one, is entered
    in front of the command, and the command is left as it is otherwise. *)
Definition _prefix_commands (e : Env.t) (command : string) (which : string) : string :=
  let cwd := setting (if String.eqb which "remote" then "cwd" else "lcwd") (Env.others e) in
  if String.eqb cwd "" then command
  else "cd " ++ cwd ++ " && " ++ command.

(** The prompt put in the place of [%(sudo_prompt)s] in a template;
    [skip] counts the characters of the placeholder still to be dropped. *)
Fixpoint insert_prompt (prompt template : string) (skip : nat) : string :=
  match template with
  | EmptyString => EmptyString
  | String c rest =>
      match skip with
      | S n => insert_prompt prompt rest n
      | O =>
          if prefix "%(sudo_prompt)s" template
          then prompt ++ insert_prompt prompt rest 14
          else String c (insert_prompt prompt rest 0)
      end
  end.

(** Modelled from the spec: [fabric.operations._sudo_prefix], absent from
    src/; the spec only names it (the "sudo-prefix-builder utility").
    Here it is the sudo prefix template of [env] with the prompt inserted,
    followed by the target user when one is given. *)
Definition _sudo_prefix (e : Env.t) (user : option pyval) : string :=
  let prefix :=
    insert_prompt (setting "sudo_prompt" (Env.others e)) (Env.sudo_prefix e) 0 in
  match user with
  | None => prefix
  | Some u => prefix ++ " -u " ++ dquote ++ str u ++ dquote ++ " "
  end.

(** A remote end on which [false] fails with status 1 and every other
    command succeeds. *)
Definition remote (command : string) (pty combine_stderr : bool) : string * string * Z :=
  match index 0 "false" command with
  | Some _ => ("", "", 1)
  | None => ("ok", "", 0)
  end.

(** Fabric's own primitive is not modelled: it only records the command. *)
Definition fabric_run_command (command : string)
    (shell pty combine_stderr sudo : bool) (user : option pyval)
    : M AttributeString.t :=
  print command ;; ret (AttributeString.new "").

Definition framework : Framework :=
  Build_Framework _prefix_env_vars _prefix_commands _sudo_prefix _shell_escape
    remote fabric_run_command.

(** Fabric's default settings, on a host named [host]. *)
Definition default_env : Env.t :=
  Env.make "/bin/bash -l -c" "sudo -S -p '%(sudo_prompt)s' " true false "host"
    [("sudo_prompt", PStr "sudo password:")].

(** The state of a fresh process: nothing patched, nothing printed or
    sent yet. *)
Definition initial : State.t :=
  State.make default_env (Output.make false true) Fabric_run_command 0 [] [] [].

(** The same process with [env.use_shell] turned off. *)
Definition without_shell : State.t :=
  State.set_env
    (Env.make "/bin/bash -l -c" "sudo -S -p '%(sudo_prompt)s' " false false "host"
       [("sudo_prompt", PStr "sudo password:")])
    initial.

End Reference.

(** The settings in force while the guest command is built: [env] after
    the assignments of lines 41 and 45. *)
Definition guest_env (e : Env.t) : Env.t :=
  Env.set_sudo_prefix
    ("sudo -S -p " ++ dquote ++ "%(sudo_prompt)s" ++ dquote ++ " ")
    (Env.set_shell "/bin/bash -c" e).

(** [sub] occurs in [s]. *)
Definition contains (s sub : string) : Prop :=
  exists before after, s = before ++ sub ++ after.

(** * Properties *)

(** ** Strings and templates *)

Lemma append_assoc (a b c : string) : (a ++ b) ++ c = a ++ b ++ c.
Proof. induction a as [|x a IH]; simpl; [reflexivity | now rewrite IH]. Qed.

Lemma append_nil_r (a : string) : a ++ "" = a.
Proof. induction a as [|x a IH]; simpl; [reflexivity | now rewrite IH]. Qed.

Lemma contains_here (sub after : string) : contains (sub ++ after) sub.
Proof. exists "", after. reflexivity. Qed.

Lemma contains_later (before s sub : string) :
  contains s sub -> contains (before ++ s) sub.
Proof.
  intros (b & a & ->). exists (before ++ b), a.
  now rewrite append_assoc.
Qed.

(** The template of the quoting step puts its argument between two double
    quotes. *)
Lemma sprintf_quoted (c : string) :
  sprintf (dquote ++ "%s" ++ dquote) (PStr c) = dquote ++ c ++ dquote.
Proof. reflexivity. Qed.

(** The template of the host command. *)
Lemma sprintf_host_command (name_or_ctid : pyval) (guest_command : string) :
  sprintf "vzctl exec2 %s '%s'" name_or_ctid (PStr guest_command) =
  "vzctl exec2 " ++ str name_or_ctid ++ " '" ++ guest_command ++ "'".
Proof. reflexivity. Qed.

(** ** The two wrap routines *)

Lemma _shell_wrap_inner_on (e : Env.t) (c : string) (sp : option string) :
  Env.use_shell e = true ->
  _shell_wrap_inner e c true sp =
  match sp with None => "" | Some p => p ++ " " end
    ++ Env.shell e ++ " " ++ dquote ++ c ++ dquote.
Proof.
  intros Hu. unfold _shell_wrap_inner. rewrite Hu. cbn [andb negb].
  rewrite sprintf_quoted, !append_assoc. reflexivity.
Qed.

Lemma _shell_wrap_inner_off (e : Env.t) (c : string) (shell : bool)
    (sp : option string) :
  shell && Env.use_shell e = false ->
  _shell_wrap_inner e c shell sp =
  match sp with None => "" | Some p => p ++ " " end ++ c.
Proof.
  intros H. unfold _shell_wrap_inner.
  destruct shell, (Env.use_shell e); try discriminate; cbn [andb negb];
    rewrite append_assoc; reflexivity.
Qed.

Section Wrap.

Context {fw : Framework}.

Lemma _shell_wrap_on (e : Env.t) (c : string) (sp : option string) :
  Env.use_shell e = true ->
  _shell_wrap e c true sp =
  match sp with None => "" | Some p => p ++ " " end
    ++ Env.shell e ++ " " ++ dquote ++ _shell_escape c ++ dquote.
Proof.
  intros Hu. unfold _shell_wrap. rewrite Hu. cbn [andb negb].
  rewrite sprintf_quoted, !append_assoc. reflexivity.
Qed.

Lemma _shell_wrap_off (e : Env.t) (c : string) (shell : bool)
    (sp : option string) :
  shell && Env.use_shell e = false ->
  _shell_wrap e c shell sp =
  match sp with None => "" | Some p => p ++ " " end ++ c.
Proof.
  intros H. unfold _shell_wrap.
  destruct shell, (Env.use_shell e); try discriminate; cbn [andb negb];
    rewrite append_assoc; reflexivity.
Qed.

(** Whatever the flags, the standard wrap starts with the sudo prefix it
    is given, followed by a space. *)
Lemma _shell_wrap_starts_with_prefix (e : Env.t) (c : string) (shell : bool)
    (p : string) :
  exists rest, _shell_wrap e c shell (Some p) = p ++ " " ++ rest.
Proof.
  destruct (shell && Env.use_shell e) eqn:H.
  - apply andb_true_iff in H as [-> Hu].
    rewrite (_shell_wrap_on e c (Some p) Hu), append_assoc. eauto.
  - rewrite (_shell_wrap_off e c shell (Some p) H), append_assoc. eauto.
Qed.

(** C4 (as amended): the two wrap routines assemble the same tokens, an
    optional sudo prefix and a space, the shell invocation and a space, and
    the command between double quotes; the standard wrap quotes the escaped
    command where the inner wrap quotes the command as it is.  Hence the
    standard wrap of a command is the inner wrap of the escaped command;
    when shell wrapping is off, the two routines agree. *)
Theorem standard_wrap_is_inner_wrap_of_escaped (e : Env.t) (c : string)
    (shell : bool) (sp : option string) :
  let sudo_part := match sp with None => "" | Some p => p ++ " " end in
  if shell && Env.use_shell e
  then
    _shell_wrap_inner e c shell sp
      = sudo_part ++ Env.shell e ++ " " ++ dquote ++ c ++ dquote
    /\ _shell_wrap e c shell sp
      = sudo_part ++ Env.shell e ++ " " ++ dquote ++ _shell_escape c ++ dquote
    /\ _shell_wrap e c shell sp = _shell_wrap_inner e (_shell_escape c) shell sp
  else
    _shell_wrap e c shell sp = _shell_wrap_inner e c shell sp.
Proof.
  intros sudo_part. destruct (shell && Env.use_shell e) eqn:H.
  - apply andb_true_iff in H as [-> Hu].
    rewrite !(_shell_wrap_inner_on e _ sp Hu), (_shell_wrap_on e c sp Hu).
    repeat split.
  - now rewrite (_shell_wrap_off e c shell sp H), (_shell_wrap_inner_off e c shell sp H).
Qed.

(** C8: when the shell flag is false, or the global use-shell setting is
    off, both wrap routines return the command with nothing added but the
    optional sudo prefix and a space. *)
Theorem wrap_without_shell (e : Env.t) (c : string) (shell : bool)
    (sp : option string) :
  shell = false \/ Env.use_shell e = false ->
  _shell_wrap_inner e c shell sp
    = match sp with None => c | Some p => p ++ " " ++ c end
  /\ _shell_wrap e c shell sp
    = match sp with None => c | Some p => p ++ " " ++ c end.
Proof.
  intros H.
  assert (Hoff : shell && Env.use_shell e = false).
  { destruct H as [-> | ->]; [reflexivity | apply andb_false_r]. }
  rewrite (_shell_wrap_inner_off e c shell sp Hoff), (_shell_wrap_off e c shell sp Hoff).
  destruct sp as [p|]; rewrite ?append_assoc; split; reflexivity.
Qed.

End Wrap.

(** ** The monad and the state *)

Lemma bind_get_env {B : Type} (k : Env.t -> M B) (w : State.t) :
  (e <- get_env ;; k e) w = k (State.env w) w.
Proof. reflexivity. Qed.

Lemma bind_put_env {B : Type} (e : Env.t) (k : M B) (w : State.t) :
  (put_env e ;; k) w = k (State.set_env e w).
Proof. reflexivity. Qed.

Lemma env_set_env (e : Env.t) (w : State.t) : State.env (State.set_env e w) = e.
Proof. reflexivity. Qed.

Lemma set_env_set_env (e e' : Env.t) (w : State.t) :
  State.set_env e (State.set_env e' w) = State.set_env e w.
Proof. reflexivity. Qed.

Lemma set_env_same (w : State.t) : State.set_env (State.env w) w = w.
Proof. destruct w; reflexivity. Qed.

(** The two assignments of lines 56 and 57 undo those of lines 41 and 45. *)
Lemma guest_env_restored (e : Env.t) :
  Env.set_sudo_prefix (Env.sudo_prefix e)
    (Env.set_shell (Env.shell e) (guest_env e)) = e.
Proof. destruct e; reflexivity. Qed.

(** ** The host execution path *)

Ltac run_host_command :=
  unfold _run_host_command, bind, get_env, get_output, _execute, print, ret, error;
  cbn [State.env State.output State.channel State.stdout State.warnings
       State._run_command State.next_addr fst snd].

Lemma abort_message (status : Z) (given_command wrapped_command : string) :
  sprintf "%s() received nonzero return code %s while executing"
    (PStr "sudo") (PInt status)
  ++ sprintf ("!" ++ newline ++ newline ++ "Requested: %s" ++ newline ++ "Executed: %s")
       (PStr given_command) (PStr wrapped_command)
  = "sudo() received nonzero return code " ++ str_of_int status
      ++ " while executing!" ++ newline ++ newline
      ++ "Requested: " ++ given_command ++ newline
      ++ "Executed: " ++ wrapped_command.
Proof.
  change (sprintf "%s() received nonzero return code %s while executing"
            (PStr "sudo") (PInt status))
    with ("sudo() received nonzero return code "
            ++ (str_of_int status ++ " while executing")).
  change (sprintf ("!" ++ newline ++ newline ++ "Requested: %s" ++ newline ++ "Executed: %s")
            (PStr given_command) (PStr wrapped_command))
    with ("!" ++ newline ++ newline ++ "Requested: " ++ given_command ++ newline
            ++ "Executed: " ++ wrapped_command ++ "").
  rewrite !append_assoc, append_nil_r. reflexivity.
Qed.

Section Host.

Context {fw : Framework}.

(** What one call of the host execution path does, by cases on the exit
    status and on [env.warn_only]: the settings, the output levels and the
    patched slot are untouched, one command goes over the channel, and the
    call returns the result or raises. *)
Lemma _run_host_command_cases (command : string) (shell pty combine_stderr : bool)
    (w : State.t) :
  let e := State.env w in
  let wrapped := _shell_wrap e command shell (Some (_sudo_prefix e None)) in
  let status := snd (remote wrapped pty combine_stderr) in
  let out := fst (fst (remote wrapped pty combine_stderr)) in
  let err := snd (fst (remote wrapped pty combine_stderr)) in
  let r := _run_host_command command shell pty combine_stderr w in
  State.env (snd r) = e
  /\ State.output (snd r) = State.output w
  /\ State._run_command (snd r) = State._run_command w
  /\ State.channel (snd r) = (State.channel w ++ [(wrapped, pty, combine_stderr)])%list
  /\ fst r =
     if status =? 0
     then Returned (AttributeString.make out (Some false) (Some status)
                      (Some true) (Some err))
     else if Env.warn_only e
     then Returned (AttributeString.make out (Some true) (Some status)
                      (Some false) (Some err))
     else Raised (SystemExit
                    ("sudo() received nonzero return code " ++ str_of_int status
                       ++ " while executing!" ++ newline ++ newline
                       ++ "Requested: " ++ command ++ newline
                       ++ "Executed: " ++ wrapped)).
Proof.
  intros e wrapped status out err r. subst status out err r.
  run_host_command. fold e. fold wrapped.
  destruct (remote wrapped pty combine_stderr) as [[o er] status].
  cbn [fst snd].
  destruct (Output.debug (State.output w)), (Output.running (State.output w)),
    (status =? 0), (Env.warn_only e) eqn:Hw;
    cbn [negb State.env State.output State.channel State.stdout State.warnings
         State._run_command State.next_addr fst snd];
    subst e; rewrite ?Hw, ?abort_message;
    repeat split; reflexivity.
Qed.

(** The shell flag reaches the host execution path through the wrapped
    command only. *)
Lemma _run_host_command_shell (command : string) (shell shell' pty combine_stderr : bool)
    (w : State.t) :
  let e := State.env w in
  _shell_wrap e command shell (Some (_sudo_prefix e None))
    = _shell_wrap e command shell' (Some (_sudo_prefix e None)) ->
  _run_host_command command shell pty combine_stderr w
    = _run_host_command command shell' pty combine_stderr w.
Proof.
  intros e H. run_host_command. fold e. rewrite H. reflexivity.
Qed.

(** The guest command is built under the overridden settings; the host
    command is then run from the very state of the call. *)
Lemma run_guest_command_eq (name_or_ctid : pyval) (command : string)
    (shell pty combine_stderr sudo : bool) (user : option pyval) (w : State.t) :
  let e := guest_env (State.env w) in
  run_guest_command name_or_ctid command shell pty combine_stderr sudo user w =
  _run_host_command
    ("vzctl exec2 " ++ str name_or_ctid ++ " '"
       ++ _shell_wrap_inner e
            (_prefix_commands e (_prefix_env_vars e command) "remote")
            true
            (if sudo && truthy user then Some (_sudo_prefix e user) else None)
       ++ "'")
    shell pty combine_stderr w.
Proof.
  intros e. unfold run_guest_command.
  rewrite bind_get_env, bind_put_env.
  rewrite bind_get_env, bind_put_env.
  rewrite bind_get_env, bind_get_env, bind_put_env.
  rewrite bind_get_env, bind_put_env.
  rewrite !env_set_env, !set_env_set_env.
  change (Env.set_sudo_prefix _ (Env.set_shell "/bin/bash -c" (State.env w))) with e.
  rewrite sprintf_host_command.
  replace (Env.set_sudo_prefix _ (Env.set_shell _ e)) with (State.env w)
    by (subst e; symmetry; exact (guest_env_restored (State.env w))).
  now rewrite set_env_same.
Qed.

End Host.

(** ** The replacement primitive and the host execution path *)

Section Guest_command.

Context {fw : Framework}.

(** C2 (as amended): the host command handed to the host execution path
    is [vzctl exec2], the container, and between single quotes the inner
    wrap of the prefixed command, built with [env.shell] forced to
    [/bin/bash -c]; for [echo hi] in container [101], without sudo, with
    no prefix in force and with [env.use_shell] on, it is
    [vzctl exec2 101 '/bin/bash -c "echo hi"']. *)
Theorem host_command_text (name_or_ctid : pyval) (command : string)
    (shell pty combine_stderr sudo : bool) (user : option pyval) (w : State.t) :
  let e := guest_env (State.env w) in
  let inner :=
    _shell_wrap_inner e
      (_prefix_commands e (_prefix_env_vars e command) "remote")
      true
      (if sudo && truthy user then Some (_sudo_prefix e user) else None) in
  Env.shell e = "/bin/bash -c"
  /\ run_guest_command name_or_ctid command shell pty combine_stderr sudo user w
     = _run_host_command
         ("vzctl exec2 " ++ str name_or_ctid ++ " '" ++ inner ++ "'")
         shell pty combine_stderr w
  /\ (Env.use_shell (State.env w) = true ->
      _prefix_env_vars e "echo hi" = "echo hi" ->
      _prefix_commands e "echo hi" "remote" = "echo hi" ->
      run_guest_command (PStr "101") "echo hi" shell pty combine_stderr false user w
      = _run_host_command
          ("vzctl exec2 101 '/bin/bash -c " ++ dquote ++ "echo hi" ++ dquote ++ "'")
          shell pty combine_stderr w).
Proof.
  intros e inner. split; [reflexivity | split].
  - apply run_guest_command_eq.
  - intros Hu He Hc.
    rewrite run_guest_command_eq. fold e. rewrite He, Hc.
    rewrite _shell_wrap_inner_on by exact Hu.
    reflexivity.
Qed.

(** C3: exit status 0 gives a result with [failed] false and [succeeded]
    true; a nonzero status gives, under [env.warn_only], a result with
    [failed] true and [succeeded] false, and otherwise an error whose
    message contains the command as requested and the command as
    executed. *)
Theorem host_status_outcome (command : string) (shell pty combine_stderr : bool)
    (w : State.t) :
  let e := State.env w in
  let wrapped := _shell_wrap e command shell (Some (_sudo_prefix e None)) in
  let status := snd (remote wrapped pty combine_stderr) in
  let r := fst (_run_host_command command shell pty combine_stderr w) in
  if status =? 0
  then exists out,
      r = Returned out
      /\ AttributeString.failed out = Some false
      /\ AttributeString.succeeded out = Some true
  else if Env.warn_only e
  then exists out,
      r = Returned out
      /\ AttributeString.failed out = Some true
      /\ AttributeString.succeeded out = Some false
  else exists message,
      r = Raised (SystemExit message)
      /\ contains message command
      /\ contains message wrapped.
Proof.
  intros e wrapped status r.
  destruct (_run_host_command_cases command shell pty combine_stderr w)
    as (_ & _ & _ & _ & Hr).
  fold e wrapped status r in Hr. rewrite Hr.
  destruct (status =? 0); [|destruct (Env.warn_only e)].
  - eexists. repeat split.
  - eexists. repeat split.
  - eexists. split; [reflexivity | split].
    + do 6 apply contains_later. apply contains_here.
    + do 9 apply contains_later. exists "", "". now rewrite append_nil_r.
Qed.

(** C5: whatever the caller's sudo flag, the command that goes over the
    channel is the standard wrap of the host command with the sudo prefix
    of root, and so starts with that prefix. *)
Theorem outer_command_always_sudo (name_or_ctid : pyval) (command : string)
    (shell pty combine_stderr sudo : bool) (user : option pyval) (w : State.t) :
  let e := State.env w in
  exists host rest,
    State.channel
      (snd (run_guest_command name_or_ctid command shell pty combine_stderr sudo user w))
    = (State.channel w
         ++ [(_shell_wrap e host shell (Some (_sudo_prefix e None)),
              pty, combine_stderr)])%list
    /\ _shell_wrap e host shell (Some (_sudo_prefix e None))
       = _sudo_prefix e None ++ " " ++ rest.
Proof.
  intros e. rewrite run_guest_command_eq.
  match goal with |- context [_run_host_command ?h] => set (host := h) end.
  destruct (_shell_wrap_starts_with_prefix e host shell (_sudo_prefix e None))
    as [rest Hrest].
  exists host, rest. split; [|exact Hrest].
  apply (_run_host_command_cases host shell pty combine_stderr w).
Qed.

(** C6 (as amended): the host command is fixed before the flags are
    looked at; the caller's shell flag is handed to the standard wrap of
    the host command, and [pty] and [combine_stderr] go unchanged to the
    execution and have no part in the wrapping. *)
Theorem outer_wrap_ignores_pty (name_or_ctid : pyval) (command : string)
    (sudo : bool) (user : option pyval) (w : State.t) :
  let e := State.env w in
  exists host, forall shell pty combine_stderr : bool,
    State.channel
      (snd (run_guest_command name_or_ctid command shell pty combine_stderr sudo user w))
    = (State.channel w
         ++ [(_shell_wrap e host shell (Some (_sudo_prefix e None)),
              pty, combine_stderr)])%list.
Proof.
  intros e. eexists. intros shell pty combine_stderr.
  rewrite run_guest_command_eq.
  apply (_run_host_command_cases _ shell pty combine_stderr w).
Qed.

(** C7: the guest command is built under the overridden settings, and the
    call then runs the host execution path from the state in which it was
    entered: [env.shell] and [env.sudo_prefix] are back to their values
    before the host command is wrapped and executed, within the call.
    When the call is over, the settings, the output levels and the patched
    slot are what they were. *)
Theorem settings_restored_before_execution (name_or_ctid : pyval)
    (command : string) (shell pty combine_stderr sudo : bool)
    (user : option pyval) (w : State.t) :
  let e0 := State.env w in
  let e := guest_env e0 in
  let host_command :=
    "vzctl exec2 " ++ str name_or_ctid ++ " '"
      ++ _shell_wrap_inner e
           (_prefix_commands e (_prefix_env_vars e command) "remote")
           true
           (if sudo && truthy user then Some (_sudo_prefix e user) else None)
      ++ "'" in
  let r := run_guest_command name_or_ctid command shell pty combine_stderr sudo user w in
  r = _run_host_command host_command shell pty combine_stderr w
  /\ State.channel (snd r)
     = (State.channel w
          ++ [(_shell_wrap e0 host_command shell (Some (_sudo_prefix e0 None)),
               pty, combine_stderr)])%list
  /\ State.env (snd r) = e0
  /\ State.output (snd r) = State.output w
  /\ State._run_command (snd r) = State._run_command w.
Proof.
  intros e0 e host_command r.
  assert (Hr : r = _run_host_command host_command shell pty combine_stderr w)
    by apply run_guest_command_eq.
  rewrite Hr.
  destruct (_run_host_command_cases host_command shell pty combine_stderr w)
    as (He & Ho & Hf & Hc & _).
  auto.
Qed.

(** C9: every result the host execution path returns carries the return
    code, the stderr text and a [succeeded] flag that negates [failed];
    a result is returned on status 0 and, under [env.warn_only], on a
    nonzero status too.  The only call that returns nothing is the one
    that raises: nonzero status without [env.warn_only]. *)
Theorem result_attributes (command : string) (shell pty combine_stderr : bool)
    (w : State.t) :
  let e := State.env w in
  let wrapped := _shell_wrap e command shell (Some (_sudo_prefix e None)) in
  let status := snd (remote wrapped pty combine_stderr) in
  let err := snd (fst (remote wrapped pty combine_stderr)) in
  match fst (_run_host_command command shell pty combine_stderr w) with
  | Returned out =>
      AttributeString.return_code out = Some status
      /\ AttributeString.stderr out = Some err
      /\ exists failed,
           AttributeString.failed out = Some failed
           /\ AttributeString.succeeded out = Some (negb failed)
  | Raised _ => status <> 0 /\ Env.warn_only e = false
  end.
Proof.
  intros e wrapped status err.
  destruct (_run_host_command_cases command shell pty combine_stderr w)
    as (_ & _ & _ & _ & Hr).
  fold e wrapped status err in Hr. rewrite Hr.
  destruct (status =? 0) eqn:Hs; [|destruct (Env.warn_only e)].
  - repeat split. exists false. split; reflexivity.
  - repeat split. exists true. split; reflexivity.
  - split; [|reflexivity]. now apply Z.eqb_neq.
Qed.

(** C10: the guest command is the inner wrap called with [shell] true,
    whatever shell argument the caller gives; the caller's shell argument
    goes to the host execution path, where it can change the outcome
    through the wrapping of the host command only. *)
Theorem inner_wrap_requested_unconditionally (name_or_ctid : pyval)
    (command : string) (pty combine_stderr sudo : bool) (user : option pyval)
    (w : State.t) :
  let e := guest_env (State.env w) in
  let guest_command :=
    _shell_wrap_inner e
      (_prefix_commands e (_prefix_env_vars e command) "remote")
      true
      (if sudo && truthy user then Some (_sudo_prefix e user) else None) in
  let host_command := "vzctl exec2 " ++ str name_or_ctid ++ " '" ++ guest_command ++ "'" in
  let root := Some (_sudo_prefix (State.env w) None) in
  (forall shell : bool,
      run_guest_command name_or_ctid command shell pty combine_stderr sudo user w
      = _run_host_command host_command shell pty combine_stderr w)
  /\ (forall shell shell' : bool,
        _shell_wrap (State.env w) host_command shell root
          = _shell_wrap (State.env w) host_command shell' root ->
        run_guest_command name_or_ctid command shell pty combine_stderr sudo user w
        = run_guest_command name_or_ctid command shell' pty combine_stderr sudo user w).
Proof.
  intros e guest_command host_command root. split.
  - intros shell. apply run_guest_command_eq.
  - intros shell shell' H. rewrite !run_guest_command_eq.
    apply _run_host_command_shell. exact H.
Qed.

End Guest_command.

(** ** The scope *)

Section Scope.

Context {fw : Framework}.

(** Inside the scope, a call through the patched slot is a call of
    [run_guest_command] for the container of the scope. *)
Lemma call_inside_guest (name_or_ctid : pyval) (w : State.t) (command : string)
    (shell pty combine_stderr sudo : bool) (user : option pyval) :
  let w1 := snd (start (guest name_or_ctid) w) in
  call (State._run_command w1) command shell pty combine_stderr sudo user
  = run_guest_command name_or_ctid command shell pty combine_stderr sudo user.
Proof. reflexivity. Qed.

End Scope.

(** When the block ends without an exception, by falling through or by an
    early return, line 68 runs and puts back the function saved at
    entry. *)
Lemma guest_unpatches_when_block_returns (name_or_ctid : pyval) (body : block)
    (w w2 : State.t) (x : exit) :
  body (snd (start (guest name_or_ctid) w)) = (Returned x, w2) ->
  with_ (guest name_or_ctid) body w
  = (Returned x, State.set__run_command (State._run_command w) w2).
Proof.
  intros H. unfold with_. cbn [start guest]. cbn [start guest snd] in H.
  rewrite H. reflexivity.
Qed.

(** When the block raises, the generator is left at the [yield] and line
    68 does not run: the state is the one the block left. *)
Lemma guest_stays_patched_when_block_raises (name_or_ctid : pyval) (body : block)
    (w w2 : State.t) (e : exn) :
  body (snd (start (guest name_or_ctid) w)) = (Raised e, w2) ->
  with_ (guest name_or_ctid) body w = (Raised e, w2).
Proof.
  intros H. unfold with_. cbn [start guest]. cbn [start guest snd] in H.
  rewrite H. reflexivity.
Qed.

(** C1, at the input on which the code departs from it: a block that
    raises inside [with guest("101")], in a fresh process.  The exception
    leaves the scope and [fabric.operations._run_command] is still the
    [run_guest_command] closure, not the function installed before
    entry. *)
Theorem guest_exception_skips_unpatch :
  let r := with_ (guest (PStr "101")) (raise (Exception "boom")) Reference.initial in
  fst r = Raised (Exception "boom")
  /\ State._run_command (snd r) = Run_guest_command 0 (PStr "101")
  /\ State._run_command (snd r) <> State._run_command Reference.initial.
Proof.
  cbv zeta. repeat split. cbn. discriminate.
Qed.

(** ** Closed examples *)

(** In a fresh process, a block that falls through or returns early
    leaves the scope with Fabric's own function back in place. *)
Example guest_scope_fall_through :
  with_ (guest (PStr "101")) (ret Fell_through) Reference.initial
  = (Returned Fell_through,
     State.make Reference.default_env (Output.make false true)
       Fabric_run_command 1 [] [] []).
Proof. reflexivity. Qed.

Example guest_scope_early_return :
  with_ (guest (PInt 101)) (ret (Early_return (PInt 3))) Reference.initial
  = (Returned (Early_return (PInt 3)),
     State.make Reference.default_env (Output.make false true)
       Fabric_run_command 1 [] [] []).
Proof. reflexivity. Qed.

(** A numeric container id is written in decimal. *)
Example host_command_of_ctid :
  sprintf "vzctl exec2 %s '%s'" (PInt 101) (PStr "ls") = "vzctl exec2 101 'ls'".
Proof. reflexivity. Qed.

(** The example of C2 in a fresh process, and the hypotheses of
    [host_command_text] there. *)
Lemma host_command_text_witness :
  Env.use_shell (State.env Reference.initial) = true
  /\ run_guest_command (fw := Reference.framework)
       (PStr "101") "echo hi" true false true false None Reference.initial
     = _run_host_command (fw := Reference.framework)
         ("vzctl exec2 101 '/bin/bash -c " ++ dquote ++ "echo hi" ++ dquote ++ "'")
         true false true Reference.initial.
Proof.
  split; [reflexivity|].
  apply (host_command_text (fw := Reference.framework)
           (PStr "101") "echo hi" true false true false None Reference.initial);
    reflexivity.
Defined.

(** C2 as stated fails: with [env.use_shell] off, [echo hi] in container
    [101], without sudo and with no prefix in force, is nested bare: the
    host command is [vzctl exec2 101 'echo hi'], and the call is not the
    host execution path run on [vzctl exec2 101 '/bin/bash -c "echo hi"']. *)
Lemma host_command_without_use_shell :
  let e := guest_env (State.env Reference.without_shell) in
  Reference._prefix_env_vars e "echo hi" = "echo hi"
  /\ Reference._prefix_commands e "echo hi" "remote" = "echo hi"
  /\ run_guest_command (fw := Reference.framework)
       (PStr "101") "echo hi" true false true false None Reference.without_shell
     = _run_host_command (fw := Reference.framework)
         "vzctl exec2 101 'echo hi'" true false true Reference.without_shell
  /\ run_guest_command (fw := Reference.framework)
       (PStr "101") "echo hi" true false true false None Reference.without_shell
     <> _run_host_command (fw := Reference.framework)
          ("vzctl exec2 101 '/bin/bash -c " ++ dquote ++ "echo hi" ++ dquote ++ "'")
          true false true Reference.without_shell.
Proof.
  cbv zeta. repeat split. vm_compute. discriminate.
Qed.

(** C4 as stated fails: escaping the inner wrap of [echo hi] also escapes
    the quotes the wrap has put around the command, which the standard
    wrap leaves alone. *)
Lemma escaped_inner_wrap_is_not_standard_wrap :
  Reference._shell_escape
    (_shell_wrap_inner Reference.default_env "echo hi" true None)
  <> _shell_wrap (fw := Reference.framework) Reference.default_env "echo hi" true None.
Proof. vm_compute. discriminate. Qed.

(** C6 as stated fails: with the shell flag off the host command goes
    over the channel bare behind the sudo prefix, with the flag on it goes
    quoted and escaped behind the shell invocation. *)
Lemma outer_wrap_depends_on_shell_flag :
  map (fun x : execution => fst (fst x))
    (State.channel
       (snd (run_guest_command (fw := Reference.framework)
               (PStr "101") "echo hi" true false true false None Reference.initial)))
  <> map (fun x : execution => fst (fst x))
       (State.channel
          (snd (run_guest_command (fw := Reference.framework)
                  (PStr "101") "echo hi" false false true false None Reference.initial))).
Proof. vm_compute. discriminate. Qed.

(** The hypothesis of [wrap_without_shell] with the shell flag off. *)
Lemma wrap_without_shell_witness :
  (false = false \/ Env.use_shell Reference.default_env = false)
  /\ _shell_wrap_inner Reference.default_env "ls" false (Some "sudo") = "sudo ls"
  /\ _shell_wrap (fw := Reference.framework) Reference.default_env "ls" false (Some "sudo")
     = "sudo ls".
Proof.
  split; [left; reflexivity|].
  apply (wrap_without_shell (fw := Reference.framework)
           Reference.default_env "ls" false (Some "sudo")).
  left; reflexivity.
Defined.

(** The hypothesis of [inner_wrap_requested_unconditionally] with
    [env.use_shell] off: both values of the shell flag wrap the host
    command alike, and the two calls agree. *)
Lemma inner_wrap_requested_unconditionally_witness :
  run_guest_command (fw := Reference.framework)
    (PStr "101") "echo hi" true false true false None Reference.without_shell
  = run_guest_command (fw := Reference.framework)
      (PStr "101") "echo hi" false false true false None Reference.without_shell.
Proof.
  apply (inner_wrap_requested_unconditionally (fw := Reference.framework)
           (PStr "101") "echo hi" false true false None Reference.without_shell).
  reflexivity.
Defined.

(** * Further properties of the module *)

(** ** More on strings *)

Lemma append_length (a b : string) :
  String.length (a ++ b) = (String.length a + String.length b)%nat.
Proof. induction a as [|x a IH]; simpl; [reflexivity | now rewrite IH]. Qed.

Lemma append_cancel_l (a b c : string) : a ++ b = a ++ c -> b = c.
Proof.
  induction a as [|x a IH]; simpl; intros H; [exact H|].
  injection H as H. now apply IH.
Qed.

Lemma append_cancel_r (a b c : string) : a ++ c = b ++ c -> a = b.
Proof.
  revert b. induction a as [|x a IH]; intros [|y b] H; simpl in H.
  - reflexivity.
  - apply (f_equal String.length) in H. simpl in H. rewrite append_length in H. lia.
  - apply (f_equal String.length) in H. simpl in H. rewrite append_length in H. lia.
  - injection H as -> H. f_equal. now apply IH.
Qed.

(** The template of the info line. *)
Lemma sprintf_info_line (host_string command : string) :
  sprintf "[%s] %s: %s" (PStr host_string) (PStr "sudo") (PStr command)
  = "[" ++ host_string ++ "] sudo: " ++ command.
Proof.
  change (sprintf "[%s] %s: %s" (PStr host_string) (PStr "sudo") (PStr command))
    with ("[" ++ host_string ++ "] sudo: " ++ command ++ "").
  now rewrite append_nil_r.
Qed.

(** The message built under [env.warn_only]. *)
Lemma warn_message (status : Z) (given_command : string) :
  sprintf "%s() received nonzero return code %s while executing"
    (PStr "sudo") (PInt status)
  ++ sprintf " '%s'!" (PStr given_command)
  = "sudo() received nonzero return code " ++ str_of_int status
      ++ " while executing '" ++ given_command ++ "'!".
Proof.
  change (sprintf "%s() received nonzero return code %s while executing"
            (PStr "sudo") (PInt status))
    with ("sudo() received nonzero return code "
            ++ (str_of_int status ++ " while executing")).
  change (sprintf " '%s'!" (PStr given_command)) with (" '" ++ given_command ++ "'!").
  rewrite !append_assoc. reflexivity.
Qed.

(** ** The inner wrap *)

(** The inner wrap puts a frame around the command: what comes before and
    after it depends on the settings, the shell flag and the sudo prefix,
    not on the command. *)
Lemma _shell_wrap_inner_frame (e : Env.t) (shell : bool) (sp : option string) :
  let sudo_part := match sp with None => "" | Some p => p ++ " " end in
  let wrapping := shell && Env.use_shell e in
  forall c : string,
    _shell_wrap_inner e c shell sp
    = (sudo_part ++ if wrapping then Env.shell e ++ " " ++ dquote else "")
        ++ c ++ (if wrapping then dquote else "").
Proof.
  intros sudo_part wrapping c. subst wrapping.
  destruct (shell && Env.use_shell e) eqn:H.
  - apply andb_true_iff in H as [-> Hu].
    rewrite (_shell_wrap_inner_on e c sp Hu). fold sudo_part.
    now rewrite !append_assoc.
  - rewrite (_shell_wrap_inner_off e c shell sp H). fold sudo_part.
    now rewrite !append_nil_r.
Qed.

(** X1: the inner wrap never rewrites the command: for given settings,
    shell flag and sudo prefix there are a fixed text before and a fixed
    text after, and the wrap of any command is the command, character for
    character, between the two. *)
Theorem inner_wrap_keeps_command_verbatim (e : Env.t) (shell : bool)
    (sp : option string) :
  exists before after : string,
    forall c : string, _shell_wrap_inner e c shell sp = before ++ c ++ after.
Proof.
  eexists. eexists. intros c. apply _shell_wrap_inner_frame.
Qed.

(** X2: the inner wrap is injective in the command: two commands with the
    same wrap, under the same settings, flag and prefix, are the same
    command. *)
Theorem inner_wrap_injective (e : Env.t) (shell : bool) (sp : option string)
    (c1 c2 : string) :
  _shell_wrap_inner e c1 shell sp = _shell_wrap_inner e c2 shell sp -> c1 = c2.
Proof.
  rewrite !_shell_wrap_inner_frame. intros H.
  apply append_cancel_l in H. now apply append_cancel_r in H.
Qed.

(** X3: a sudo prefix is put in front of the wrap with one space, and has
    no other effect.  The empty string is a prefix like any other: it
    leaves a leading space where [None] leaves nothing. *)
Theorem inner_wrap_prepends_sudo_prefix (e : Env.t) (c : string) (shell : bool)
    (p : string) :
  _shell_wrap_inner e c shell (Some p) = p ++ " " ++ _shell_wrap_inner e c shell None.
Proof.
  rewrite !_shell_wrap_inner_frame. cbv zeta.
  now rewrite !append_assoc.
Qed.

(** ** More on the host execution path *)

Section Host_effects.

Context {fw : Framework}.

(** X4: the info line.  With [output.debug] the call prints the command as
    wrapped; otherwise, with [output.running], the command as given;
    otherwise nothing.  The line is printed whatever the exit status, also
    when the call raises. *)
Theorem info_line (command : string) (shell pty combine_stderr : bool)
    (w : State.t) :
  let e := State.env w in
  let wrapped := _shell_wrap e command shell (Some (_sudo_prefix e None)) in
  State.stdout (snd (_run_host_command command shell pty combine_stderr w))
  = app (State.stdout w)
      (if Output.debug (State.output w)
       then ["[" ++ Env.host_string e ++ "] sudo: " ++ wrapped]
       else if Output.running (State.output w)
       then ["[" ++ Env.host_string e ++ "] sudo: " ++ command]
       else []).
Proof.
  intros e wrapped. run_host_command. fold e. fold wrapped.
  rewrite !sprintf_info_line.
  destruct (remote wrapped pty combine_stderr) as [[o er] status].
  destruct (Output.debug (State.output w)), (Output.running (State.output w)),
    (status =? 0), (Env.warn_only e) eqn:Hw;
    cbn [negb State.env State.output State.channel State.stdout State.warnings
         State._run_command State.next_addr fst snd];
    subst e; rewrite ?Hw; cbn [State.stdout snd];
    rewrite ?app_nil_r; reflexivity.
Qed.

(** X5: what is handed to the framework's error reporting.  On status 0
    nothing is reported.  On a nonzero status under [env.warn_only] the
    call records one message, which gives the status and the command as
    requested; without [env.warn_only] the call raises and records
    nothing. *)
Theorem warn_only_message (command : string) (shell pty combine_stderr : bool)
    (w : State.t) :
  let e := State.env w in
  let wrapped := _shell_wrap e command shell (Some (_sudo_prefix e None)) in
  let status := snd (remote wrapped pty combine_stderr) in
  State.warnings (snd (_run_host_command command shell pty combine_stderr w))
  = app (State.warnings w)
      (if (status =? 0) || negb (Env.warn_only e)
       then []
       else ["sudo() received nonzero return code " ++ str_of_int status
               ++ " while executing '" ++ command ++ "'!"]).
Proof.
  intros e wrapped status. subst status. run_host_command. fold e. fold wrapped.
  destruct (remote wrapped pty combine_stderr) as [[o er] status].
  cbn [fst snd].
  destruct (Output.debug (State.output w)), (Output.running (State.output w)),
    (status =? 0), (Env.warn_only e) eqn:Hw;
    cbn [negb orb State.env State.output State.channel State.stdout State.warnings
         State._run_command State.next_addr fst snd];
    subst e; rewrite ?Hw; cbn [State.warnings snd];
    rewrite ?warn_message, ?app_nil_r; reflexivity.
Qed.

(** X6: the string that the call returns is the remote standard output,
    as it came, whether the command succeeded or failed. *)
Theorem result_text_is_remote_stdout (command : string)
    (shell pty combine_stderr : bool) (w : State.t) (out : AttributeString.t)
    (w' : State.t) :
  let e := State.env w in
  let wrapped := _shell_wrap e command shell (Some (_sudo_prefix e None)) in
  _run_host_command command shell pty combine_stderr w = (Returned out, w') ->
  AttributeString.text out = fst (fst (remote wrapped pty combine_stderr)).
Proof.
  intros e wrapped H.
  destruct (_run_host_command_cases command shell pty combine_stderr w)
    as (_ & _ & _ & _ & Hr).
  fold e wrapped in Hr. rewrite H in Hr. cbn [fst] in Hr.
  destruct (snd (remote wrapped pty combine_stderr) =? 0);
    [|destruct (Env.warn_only e)];
    try discriminate; injection Hr as ->; reflexivity.
Qed.

End Host_effects.

(** ** More on the replacement primitive *)

Lemma guest_env_overrides (s p : string) (e : Env.t) :
  guest_env (Env.set_sudo_prefix p (Env.set_shell s e)) = guest_env e.
Proof. reflexivity. Qed.

Section Guest_arguments.

Context {fw : Framework}.

(** X7: the sudo flag counts only together with a user that is neither
    [None], nor empty, nor zero: two calls in which the test
    [sudo and user] fails have the same outcome, whatever their sudo flags
    and users. *)
Theorem sudo_without_user_is_run (name_or_ctid : pyval) (command : string)
    (shell pty combine_stderr : bool) (sudo sudo' : bool) (user user' : option pyval)
    (w : State.t) :
  sudo && truthy user = false ->
  sudo' && truthy user' = false ->
  run_guest_command name_or_ctid command shell pty combine_stderr sudo user w
  = run_guest_command name_or_ctid command shell pty combine_stderr sudo' user' w.
Proof.
  intros H H'. rewrite !run_guest_command_eq. cbv zeta. now rewrite H, H'.
Qed.

(** X8: a container is addressed through its [str()]: a name and a
    numeric id that read the same give the same call. *)
Theorem name_and_ctid_alike (name_or_ctid name_or_ctid' : pyval) (command : string)
    (shell pty combine_stderr sudo : bool) (user : option pyval) (w : State.t) :
  str name_or_ctid = str name_or_ctid' ->
  run_guest_command name_or_ctid command shell pty combine_stderr sudo user w
  = run_guest_command name_or_ctid' command shell pty combine_stderr sudo user w.
Proof.
  intros H. rewrite !run_guest_command_eq. cbv zeta. now rewrite H.
Qed.

(** X9: the host command does not depend on the shell and the sudo prefix
    template that are configured when the call is made: were [env.shell]
    and [env.sudo_prefix] set to anything else, the call would hand the
    same host command to the host execution path. *)
Theorem host_command_ignores_configured_shell (name_or_ctid : pyval)
    (command : string) (shell pty combine_stderr sudo : bool)
    (user : option pyval) (w : State.t) (s p : string) :
  let e := guest_env (State.env w) in
  let host_command :=
    "vzctl exec2 " ++ str name_or_ctid ++ " '"
      ++ _shell_wrap_inner e
           (_prefix_commands e (_prefix_env_vars e command) "remote")
           true
           (if sudo && truthy user then Some (_sudo_prefix e user) else None)
      ++ "'" in
  let w' := State.set_env (Env.set_sudo_prefix p (Env.set_shell s (State.env w))) w in
  run_guest_command name_or_ctid command shell pty combine_stderr sudo user w'
  = _run_host_command host_command shell pty combine_stderr w'.
Proof.
  intros e host_command w'. rewrite run_guest_command_eq.
  subst w'. rewrite env_set_env, guest_env_overrides. reflexivity.
Qed.

(** X10: a call through the patched slot leaves the slot patched, whether
    it returns or raises: the next call through the slot is again a call of
    [run_guest_command] for the container of the scope. *)
Theorem slot_stays_patched_across_calls (name_or_ctid : pyval) (w : State.t)
    (command : string) (shell pty combine_stderr sudo : bool)
    (user : option pyval) :
  let w1 := snd (start (guest name_or_ctid) w) in
  let w2 := snd (call (State._run_command w1)
                   command shell pty combine_stderr sudo user w1) in
  State._run_command w2 = State._run_command w1
  /\ call (State._run_command w2) = run_guest_command name_or_ctid.
Proof.
  intros w1 w2.
  assert (Hcall : call (State._run_command w1) = run_guest_command name_or_ctid)
    by reflexivity.
  assert (Hslot : State._run_command w2 = State._run_command w1).
  { subst w2. rewrite Hcall, run_guest_command_eq.
    apply _run_host_command_cases. }
  split; [exact Hslot|].
  rewrite Hslot. exact Hcall.
Qed.

(** X13: the command is nested between the single quotes of the host
    command as it is: around the prefixed command the host command has a
    text before and a text after that do not depend on the command, and no
    character of the command is escaped or dropped. *)
Theorem command_nested_unescaped (name_or_ctid : pyval)
    (shell pty combine_stderr sudo : bool) (user : option pyval) (w : State.t) :
  let e := guest_env (State.env w) in
  exists before after : string, forall command : string,
    run_guest_command name_or_ctid command shell pty combine_stderr sudo user w
    = _run_host_command
        ("vzctl exec2 " ++ str name_or_ctid ++ " '"
           ++ before
           ++ _prefix_commands e (_prefix_env_vars e command) "remote"
           ++ after ++ "'")
        shell pty combine_stderr w.
Proof.
  intros e.
  set (sp := if sudo && truthy user then Some (_sudo_prefix e user) else None).
  exists ((match sp with None => "" | Some p => p ++ " " end)
            ++ if true && Env.use_shell e then Env.shell e ++ " " ++ dquote else "").
  exists (if true && Env.use_shell e then dquote else "").
  intros command.
  rewrite run_guest_command_eq. fold e. fold sp.
  rewrite (_shell_wrap_inner_frame e true sp).
  f_equal. apply (f_equal (append "vzctl exec2 ")), (f_equal (append (str name_or_ctid))).
  apply (f_equal (append " '")).
  now rewrite !append_assoc.
Qed.

End Guest_arguments.

(** ** More on the scope *)

(** X11: when the block ends without an exception, the scope puts back the
    function that was installed at entry, whatever the block has installed
    in between, and changes nothing else of what the block left. *)
Theorem scope_restores_saved_function (name_or_ctid : pyval) (body : block)
    (w w2 : State.t) (x : exit) :
  body (snd (start (guest name_or_ctid) w)) = (Returned x, w2) ->
  let r := with_ (guest name_or_ctid) body w in
  fst r = Returned x
  /\ State._run_command (snd r) = State._run_command w
  /\ State.env (snd r) = State.env w2
  /\ State.output (snd r) = State.output w2
  /\ State.stdout (snd r) = State.stdout w2
  /\ State.warnings (snd r) = State.warnings w2
  /\ State.channel (snd r) = State.channel w2.
Proof.
  intros H r. subst r.
  rewrite (guest_unpatches_when_block_returns name_or_ctid body w w2 x H).
  repeat split.
Qed.

(** X12: scopes nest.  When a scope for one container is opened inside the
    block of a scope for another and its block ends without an exception,
    the inner scope puts back the closure of the outer scope, and the outer
    scope then puts back the function installed before both. *)
Theorem nested_scopes_unwind (outer inner : pyval) (body : block)
    (w w3 : State.t) (x : exit) :
  let w1 := snd (start (guest outer) w) in
  let w2 := snd (start (guest inner) w1) in
  body w2 = (Returned x, w3) ->
  State._run_command w1 = Run_guest_command (State.next_addr w) outer
  /\ State._run_command w2 = Run_guest_command (S (State.next_addr w)) inner
  /\ State._run_command (snd (with_ (guest inner) body w1))
     = Run_guest_command (State.next_addr w) outer
  /\ with_ (guest outer) (with_ (guest inner) body) w
     = (Returned x, State.set__run_command (State._run_command w) w3).
Proof.
  intros w1 w2 H.
  assert (Hin : with_ (guest inner) body w1
                = (Returned x, State.set__run_command (State._run_command w1) w3))
    by (apply guest_unpatches_when_block_returns; exact H).
  repeat split.
  - rewrite Hin. reflexivity.
  - rewrite (guest_unpatches_when_block_returns outer _ w _ x Hin).
    reflexivity.
Qed.

(** ** Closed examples of the further properties *)

(** In a fresh process [ls] succeeds and the call returns its output. *)
Lemma result_text_is_remote_stdout_witness :
  let r := _run_host_command (fw := Reference.framework)
             "ls" true false true Reference.initial in
  exists out : AttributeString.t,
    fst r = Returned out /\ AttributeString.text out = "ok".
Proof.
  intros r.
  exists (AttributeString.make "ok" (Some false) (Some 0) (Some true) (Some EmptyString)).
  split; [reflexivity|].
  apply (result_text_is_remote_stdout (fw := Reference.framework)
           "ls" true false true Reference.initial _ (snd r)).
  reflexivity.
Defined.

(** [sudo] with an empty user is [run]. *)
Lemma sudo_without_user_is_run_witness :
  run_guest_command (fw := Reference.framework)
    (PStr "101") "id" true false true true (Some (PStr EmptyString)) Reference.initial
  = run_guest_command (fw := Reference.framework)
      (PStr "101") "id" true false true false None Reference.initial.
Proof.
  apply (sudo_without_user_is_run (fw := Reference.framework));
    reflexivity.
Defined.

(** The container 101, by number and by name. *)
Lemma name_and_ctid_alike_witness :
  run_guest_command (fw := Reference.framework)
    (PInt 101) "id" true false true false None Reference.initial
  = run_guest_command (fw := Reference.framework)
      (PStr "101") "id" true false true false None Reference.initial.
Proof.
  apply (name_and_ctid_alike (fw := Reference.framework)).
  reflexivity.
Defined.

(** A scope around a block that does nothing. *)
Lemma scope_restores_saved_function_witness :
  State._run_command
    (snd (with_ (guest (PStr "101")) (ret Fell_through) Reference.initial))
  = Fabric_run_command.
Proof.
  apply (scope_restores_saved_function (PStr "101") (ret Fell_through)
           Reference.initial _ Fell_through eq_refl).
Defined.

(** Two scopes, one inside the other, around a block that does nothing. *)
Lemma nested_scopes_unwind_witness :
  State._run_command
    (snd (with_ (guest (PStr "102")) (ret Fell_through)
            (snd (start (guest (PStr "101")) Reference.initial))))
  = Run_guest_command 0 (PStr "101").
Proof.
  apply (nested_scopes_unwind (PStr "101") (PStr "102") (ret Fell_through)
           Reference.initial _ Fell_through eq_refl).
Defined.

(** Two commands that wrap alike under the default settings. *)
Lemma inner_wrap_injective_witness :
  _shell_wrap_inner Reference.default_env "ls" true None
    = _shell_wrap_inner Reference.default_env "ls" true None
  /\ "ls" = "ls".
Proof.
  split; [reflexivity|].
  apply (inner_wrap_injective Reference.default_env true None "ls" "ls").
  reflexivity.
Defined.
